(** * Hartonomous-Sandbox tools: [parse_onnx.py] and [create_and_save_model.py]

    A shallow embedding of the two stand-alone Python scripts under
    [tools/], and the properties of their observable behaviour.

    Both scripts are straight-line sequences of library calls.  The
    libraries (onnx, json, tensorflow, numpy, os) are not part of the
    repository; what the scripts need of them is modelled here and said so
    at each definition. *)

From Stdlib Require Import List String Ascii NArith Arith Bool Lia.
Import ListNotations.

Set Implicit Arguments.

(* ===================================================================== *)
(** * The interpreter's front end: indentation

    Before it runs any statement of a file, CPython compiles the whole
    file.  The part of that modelled here is the block structure: the
    tokenizer's indentation stack (it turns the leading spaces of each
    logical line into INDENT and DEDENT tokens) and the grammar's rule
    that an INDENT is accepted exactly after a line that ends in a colon.

    The model covers what the two scripts contain: spaces for
    indentation, one-line string literals in single or double quotes,
    comments, and brackets that continue a logical line.  Tabs,
    triple-quoted strings and backslash continuations do not occur in
    them and are not modelled. *)
(* ===================================================================== *)

Module Layout.

Inductive compile_error :=
| IndentationError (msg : string) (lineno : nat)
| SyntaxError (msg : string) (lineno : nat).

Definition unexpected_indent : string := "unexpected indent".
Definition expected_block : string := "expected an indented block".
Definition bad_unindent : string :=
  "unindent does not match any outer indentation level".
Definition unterminated_string : string := "unterminated string literal".
Definition never_closed : string := "bracket was never closed".

Definition space : ascii := " "%char.
Definition hash : ascii := "#"%char.
Definition colon : ascii := ":"%char.
Definition backslash : ascii := "\"%char.
Definition squote : ascii := "'"%char.
Definition dquote : ascii := ascii_of_nat 34.

(** A double quote, for writing source lines. *)
Definition dq : string := String dquote EmptyString.

Definition is_open (c : ascii) : bool :=
  (c =? "(")%char || (c =? "[")%char || (c =? "{")%char.
Definition is_close (c : ascii) : bool :=
  (c =? ")")%char || (c =? "]")%char || (c =? "}")%char.
Definition is_quote (c : ascii) : bool :=
  (c =? squote)%char || (c =? dquote)%char.

(** The number of leading spaces of a line, and the rest of it. *)
Fixpoint split_indent (l : string) : nat * string :=
  match l with
  | String c l' =>
      if (c =? space)%char
      then let (n, r) := split_indent l' in (S n, r)
      else (0, l)
  | EmptyString => (0, EmptyString)
  end.

(** The state of the scan inside one physical line. *)
Record scan := {
  depth : nat;              (* open brackets *)
  quote : option ascii;     (* inside a string literal opened by this quote *)
  escaped : bool;           (* the previous character was a backslash in a string *)
  last : option ascii       (* last character that is neither space nor comment *)
}.

Fixpoint scan_line (l : string) (st : scan) : scan :=
  match l with
  | EmptyString => st
  | String c l' =>
      match quote st with
      | Some q =>
          if escaped st then
            scan_line l' {| depth := depth st; quote := Some q;
                            escaped := false; last := Some c |}
          else if (c =? backslash)%char then
            scan_line l' {| depth := depth st; quote := Some q;
                            escaped := true; last := Some c |}
          else if (c =? q)%char then
            scan_line l' {| depth := depth st; quote := None;
                            escaped := false; last := Some c |}
          else
            scan_line l' {| depth := depth st; quote := Some q;
                            escaped := false; last := Some c |}
      | None =>
          if (c =? hash)%char then st
          else if (c =? space)%char then scan_line l' st
          else if is_quote c then
            scan_line l' {| depth := depth st; quote := Some c;
                            escaped := false; last := Some c |}
          else if is_open c then
            scan_line l' {| depth := S (depth st); quote := None;
                            escaped := false; last := Some c |}
          else if is_close c then
            scan_line l' {| depth := pred (depth st); quote := None;
                            escaped := false; last := Some c |}
          else
            scan_line l' {| depth := depth st; quote := None;
                            escaped := false; last := Some c |}
      end
  end.

(** Pop the indentation stack down to column [col]. *)
Fixpoint dedent (stack : list nat) (col : nat) : option (list nat) :=
  match stack with
  | [] => None
  | top :: below =>
      if col <? top then dedent below col
      else if col =? top then Some stack
      else None
  end.

(** The state between physical lines. *)
Record state := {
  stack : list nat;        (* indentation stack, innermost first *)
  nesting : nat;           (* brackets still open: the logical line goes on *)
  after_colon : bool       (* the last logical line ended in a colon *)
}.

Definition initial : state :=
  {| stack := [0]; nesting := 0; after_colon := false |}.

(** The indentation of the first line of a logical line, against the
    stack. *)
Definition enter (st : state) (col lineno : nat) : compile_error + list nat :=
  let top := hd 0 (stack st) in
  if top <? col then
    if after_colon st then inr (col :: stack st)
    else inl (IndentationError unexpected_indent lineno)
  else if after_colon st then
    inl (IndentationError expected_block lineno)
  else
    match dedent (stack st) col with
    | Some stk => inr stk
    | None => inl (IndentationError bad_unindent lineno)
    end.

Definition finish (stk : list nat) (sc : scan) (lineno : nat)
  : compile_error + state :=
  match quote sc with
  | Some _ => inl (SyntaxError unterminated_string lineno)
  | None =>
      inr {| stack := stk;
             nesting := depth sc;
             after_colon :=
               match depth sc, last sc with
               | 0, Some c => (c =? colon)%char
               | _, _ => false
               end |}
  end.

Definition step (st : state) (lineno : nat) (l : string)
  : compile_error + state :=
  let fresh d := {| depth := d; quote := None; escaped := false; last := None |} in
  match nesting st with
  | S _ => finish (stack st) (scan_line l (fresh (nesting st))) lineno
  | 0 =>
      let (col, rest) := split_indent l in
      match rest with
      | EmptyString => inr st                        (* blank line *)
      | String c _ =>
          if (c =? hash)%char then inr st            (* comment line *)
          else
            match enter st col lineno with
            | inl e => inl e
            | inr stk => finish stk (scan_line rest (fresh 0)) lineno
            end
      end
  end.

Fixpoint check_from (st : state) (lineno : nat) (lines : list string)
  : option compile_error :=
  match lines with
  | [] =>
      if after_colon st then Some (IndentationError expected_block lineno)
      else match nesting st with
           | 0 => None
           | S _ => Some (SyntaxError never_closed lineno)
           end
  | l :: rest =>
      match step st lineno l with
      | inl e => Some e
      | inr st' => check_from st' (S lineno) rest
      end
  end.

(** [None]: the file's block structure is accepted. *)
Definition check (lines : list string) : option compile_error :=
  check_from initial 1 lines.

End Layout.

(* ===================================================================== *)
(** * Python values shared by both scripts *)
(* ===================================================================== *)

Module Py.

(** A Python [str] is a sequence of Unicode code points. *)
Definition str := list N.

(** A source literal, read character by character. *)
Definition lit (s : string) : str := map N_of_ascii (list_ascii_of_string s).

Fixpoint str_eqb (a b : str) : bool :=
  match a, b with
  | [], [] => true
  | x :: a', y :: b' => N.eqb x y && str_eqb a' b'
  | _, _ => false
  end.

Definition NL : str := [10%N].

(** ** A state-and-exception monad

    A computation runs on a state of type [S]; it ends with a value or
    with a raised exception of type [E].  The state reached when the
    exception is raised is kept: what was printed stays printed. *)
Section Monad.
Variables S E : Type.

Definition M (A : Type) : Type := S -> S * (E + A).

Definition ret {A} (a : A) : M A := fun s => (s, inr a).

Definition raise {A} (e : E) : M A := fun s => (s, inl e).

Definition bind {A B} (c : M A) (k : A -> M B) : M B :=
  fun s =>
    match c s with
    | (s', inr a) => k a s'
    | (s', inl e) => (s', inl e)
    end.

Definition modify (f : S -> S) : M unit := fun s => (f s, inr tt).

(** [for x in xs: acc = body x acc], stopping at the first exception. *)
Fixpoint for_each {A B} (xs : list A) (acc : B) (body : A -> B -> M B) : M B :=
  match xs with
  | [] => ret acc
  | x :: xs' => bind (body x acc) (fun acc' => for_each xs' acc' body)
  end.
End Monad.

Arguments ret {S E A} a.
Arguments raise {S E A} e.
Arguments bind {S E A B} c k.
Arguments modify {S E} f.
Arguments for_each {S E A B} xs acc body.

(** ** Running a file as a script

    [python file.py]: the file is compiled first; a file that is
    refused runs none of its statements.  An exception that leaves the
    top level is uncaught: the interpreter reports it on standard error
    ([report]) and exits with status 1.  Otherwise the status is 0. *)
Section Run.
Variables S E : Type.

Inductive error :=
| Refused (e : Layout.compile_error)
| Raised (e : E).

Record outcome := {
  final : S;
  uncaught : option error;
  exit_status : nat
}.

Variable report : error -> S -> S.

Definition python_run (source : list string) (body : M S E unit) (start : S)
  : outcome :=
  match Layout.check source with
  | Some e =>
      {| final := report (Refused e) start;
         uncaught := Some (Refused e);
         exit_status := 1 |}
  | None =>
      match body start with
      | (w, inr tt) => {| final := w; uncaught := None; exit_status := 0 |}
      | (w, inl e) =>
          {| final := report (Raised e) w;
             uncaught := Some (Raised e);
             exit_status := 1 |}
      end
  end.
End Run.

Arguments Refused {E} e.
Arguments Raised {E} e.
Arguments python_run {S E} report source body start.

(** ** The values [json.dumps] is given by the dump utility: [str],
    [None], [list] and [dict].  A [dict] keeps its insertion order, so
    it is an association list. *)
#[local] Set Warnings "-register-all".
Inductive value : Type :=
| VNone
| VStr (s : str)
| VList (items : list value)
| VDict (items : list (str * value)).

(** [d[k]] on the items of a dict. *)
Fixpoint dict_get (items : list (str * value)) (k : str) : option value :=
  match items with
  | [] => None
  | (k', v) :: rest => if str_eqb k' k then Some v else dict_get rest k
  end.

(** [d[k] = v] on a key that is already there keeps the key's place. *)
Fixpoint dict_set (items : list (str * value)) (k : str) (v : value)
  : list (str * value) :=
  match items with
  | [] => [(k, v)]
  | (k', v') :: rest =>
      if str_eqb k' k then (k', v) :: rest else (k', v') :: dict_set rest k v
  end.

Definition get (d : value) (k : str) : option value :=
  match d with
  | VDict items => dict_get items k
  | _ => None
  end.

End Py.

Declare Scope py_scope.
Delimit Scope py_scope with py.
Notation "x <- c ;; k" := (Py.bind c (fun x => k))
  (at level 61, c at next level, right associativity) : py_scope.
Notation "c ;;; k" := (Py.bind c (fun _ => k))
  (at level 61, right associativity) : py_scope.

(* ===================================================================== *)
(** * The [json] library: [json.dumps(obj, indent=n)]

    Modelled after CPython's pure-Python encoder ([json/encoder.py]) with
    the default [ensure_ascii=True]: [py_encode_basestring_ascii] for
    strings, and the indenting branches of [_make_iterencode] for lists
    and dicts (items are separated by a comma and a line break, a key
    from its value by a colon and a space). *)
(* ===================================================================== *)

Module Json.
Import Py.

Definition hex_digit (d : N) : N :=
  if (d <? 10)%N then (48 + d)%N else (87 + d)%N.

(** ['{0:04x}'.format(n)] for [n < 0x10000]. *)
Definition hex4 (n : N) : str :=
  [ hex_digit (N.land (N.shiftr n 12) 15);
    hex_digit (N.land (N.shiftr n 8) 15);
    hex_digit (N.land (N.shiftr n 4) 15);
    hex_digit (N.land n 15) ].

Definition backslash : N := 92.
Definition dquote : N := 34.

Definition u_escape (n : N) : str := backslash :: 117%N :: hex4 n.

(** One character under [ESCAPE_ASCII] (a backslash, a double quote, or
    anything outside space..tilde is escaped) and [ESCAPE_DCT]. *)
Definition escape_char (c : N) : str :=
  if (c =? 92)%N then [backslash; backslash]
  else if (c =? 34)%N then [backslash; dquote]
  else if ((32 <=? c) && (c <=? 126))%N then [c]
  else if (c =? 8)%N then [backslash; 98%N]
  else if (c =? 12)%N then [backslash; 102%N]
  else if (c =? 10)%N then [backslash; 110%N]
  else if (c =? 13)%N then [backslash; 114%N]
  else if (c =? 9)%N then [backslash; 116%N]
  else if (c <? 65536)%N then u_escape c
  else
    let n := (c - 65536)%N in
    let s1 := N.lor 55296 (N.land (N.shiftr n 10) 1023) in
    let s2 := N.lor 56320 (N.land n 1023) in
    u_escape s1 ++ u_escape s2.

Definition encode_basestring_ascii (s : str) : str :=
  dquote :: flat_map escape_char s ++ [dquote].

Definition newline_indent (indent level : nat) : str :=
  NL ++ repeat 32%N (indent * level).

Section Encode.
Variable indent : nat.

Fixpoint iterencode (level : nat) (o : value) {struct o} : str :=
  match o with
  | VNone => lit "null"
  | VStr s => encode_basestring_ascii s
  | VList [] => lit "[]"
  | VList (x :: xs) =>
      let sep := newline_indent indent (S level) in
      lit "[" ++ sep ++ iterencode (S level) x
      ++ (fix rest (l : list value) : str :=
            match l with
            | [] => []
            | y :: l' => lit "," ++ sep ++ iterencode (S level) y ++ rest l'
            end) xs
      ++ newline_indent indent level ++ lit "]"
  | VDict [] => lit "{}"
  | VDict ((k, v) :: kvs) =>
      let sep := newline_indent indent (S level) in
      lit "{" ++ sep ++ encode_basestring_ascii k ++ lit ": "
      ++ iterencode (S level) v
      ++ (fix rest (l : list (str * value)) : str :=
            match l with
            | [] => []
            | (k', v') :: l' =>
                lit "," ++ sep ++ encode_basestring_ascii k' ++ lit ": "
                ++ iterencode (S level) v' ++ rest l'
            end) kvs
      ++ newline_indent indent level ++ lit "}"
  end.
End Encode.

Definition dumps (obj : value) (indent : nat) : str := iterencode indent 0 obj.

End Json.

(* ===================================================================== *)
(** * [tools/parse_onnx.py]: the graph-node dump utility *)
(* ===================================================================== *)

Module ParseOnnx.
Import Py.
Import Layout (dq).
Local Open Scope py_scope.

(** ** The parts of an ONNX model the script reads

    [onnx.ModelProto] and its [GraphProto] and [NodeProto] have many more
    fields; the script reads [model.graph.name], [model.domain],
    [model.graph.node] and of each node [name] and [op_type]. *)
Module NodeProto.
Record t := { name : str; op_type : str }.
End NodeProto.

Module GraphProto.
Record t := { name : str; node : list NodeProto.t }.
End GraphProto.

Module ModelProto.
Record t := { graph : GraphProto.t; domain : str }.
End ModelProto.

(** ** Exceptions that can reach the top level *)
Inductive exn :=
| FileNotFoundError (filename : str)   (* [open] inside [onnx.load] *)
| DecodeError                         (* protobuf deserialisation *)
| IndexError                          (* [sys.argv[1]] out of range *)
| KeyError (key : str)                (* [output[k]] on a missing key *)
| AttributeError                      (* [.append] on a non-list *)
| ValidationError (location : str).   (* external data that is not there *)

(** ** The process state the script acts on

    [opened] and [dumped] keep a record of the library calls made: the
    paths handed to the file system and the objects handed to
    [json.dumps], in call order. *)
Record io := {
  stdout : str;
  stderr : str;
  opened : list str;
  dumped : list value
}.

Definition start : io :=
  {| stdout := []; stderr := []; opened := []; dumped := [] |}.

Definition M := Py.M io exn.

(** [print(s)]: the text and a newline, on standard output. *)
Definition print (s : str) : M unit :=
  modify (fun w => {| stdout := stdout w ++ s ++ NL;
                      stderr := stderr w;
                      opened := opened w;
                      dumped := dumped w |}).

(** [json.dumps(obj, indent=n)] *)
Definition json_dumps (obj : value) (indent : nat) : M str :=
  modify (fun w => {| stdout := stdout w;
                      stderr := stderr w;
                      opened := opened w;
                      dumped := dumped w ++ [obj] |}) ;;;
  ret (Json.dumps obj indent).

(** [l[i]] *)
Definition subscript {A} (l : list A) (i : nat) : M A :=
  match nth_error l i with
  | Some x => ret x
  | None => raise IndexError
  end.

(** [d[k].append(x)] on a dict [d]: the list stored under [k] is
    extended in place. *)
Definition append_at (d : value) (k : str) (x : value) : M value :=
  match d with
  | VDict items =>
      match dict_get items k with
      | Some (VList l) => ret (VDict (dict_set items k (VList (l ++ [x]))))
      | Some _ => raise AttributeError
      | None => raise (KeyError k)
      end
  | _ => raise AttributeError
  end.

Section Script.
(** What the process is started with: its argument vector, the files
    on disk (a path with no file maps to [None]) and the onnx
    library's deserialiser. *)
Variable argv : list str.
Variable disk : str -> option (list N).
Variable parse : list N -> option ModelProto.t.

(** [onnx.load(path)]: open the file, read it, deserialise it.  That is
    the whole load when the model file names no external data;
    [ParseOnnxExternal.onnx_load] has the load in general. *)
Definition onnx_load (path : str) : M ModelProto.t :=
  modify (fun w => {| stdout := stdout w;
                      stderr := stderr w;
                      opened := opened w ++ [path];
                      dumped := dumped w |}) ;;;
  match disk path with
  | None => raise (FileNotFoundError path)
  | Some bytes =>
      match parse bytes with
      | None => raise DecodeError
      | Some model => ret model
      end
  end.

Definition usage : str := lit "Usage: python parse_onnx.py <model_path>".

(** The dict built for one node (lines 21-26). *)
Definition layer_of (node : NodeProto.t) : value :=
  VDict [ (lit "name", VStr (NodeProto.name node));
          (lit "type", VStr (NodeProto.op_type node));
          (lit "parameters", VDict []);
          (lit "weights", VNone) ].

(** The dict built before the loop (lines 13-18). *)
Definition output_of (model : ModelProto.t) : value :=
  VDict [ (lit "name", VStr (GraphProto.name (ModelProto.graph model)));
          (lit "type", VStr (lit "ONNX"));
          (lit "architecture", VStr (ModelProto.domain model));
          (lit "layers", VList []) ].

Definition main : M unit :=
  if List.length argv <? 2 then
    print usage
    (* return *)
  else
    model_path <- subscript argv 1 ;;
    model <- onnx_load model_path ;;
    let output := output_of model in
    output <- for_each (GraphProto.node (ModelProto.graph model)) output
                (fun node output =>
                   let layer := layer_of node in
                   append_at output (lit "layers") layer) ;;
    text <- json_dumps output 4 ;;
    print text.

(** ** Running the file as a script

    The text of [tools/parse_onnx.py], line by line ([dq] is a double
    quote).  Lines 31-32 call [main()] with nothing around the call.  The
    imports of lines 1-3 are taken to succeed: the libraries are
    installed. *)
Definition source : list string := [
    (*  1 *) "import onnx";
    (*  2 *) "import json";
    (*  3 *) "import sys";
    (*  4 *) EmptyString;
    (*  5 *) "def main():";
    (*  6 *) "    if len(sys.argv) < 2:";
    (*  7 *) "        print(" ++ dq ++ "Usage: python parse_onnx.py <model_path>" ++ dq ++ ")";
    (*  8 *) "        return";
    (*  9 *) EmptyString;
    (* 10 *) "    model_path = sys.argv[1]";
    (* 11 *) "    model = onnx.load(model_path)";
    (* 12 *) EmptyString;
    (* 13 *) "    output = {";
    (* 14 *) "        " ++ dq ++ "name" ++ dq ++ ": model.graph.name,";
    (* 15 *) "        " ++ dq ++ "type" ++ dq ++ ": " ++ dq ++ "ONNX" ++ dq ++ ",";
    (* 16 *) "        " ++ dq ++ "architecture" ++ dq ++ ": model.domain,";
    (* 17 *) "        " ++ dq ++ "layers" ++ dq ++ ": []";
    (* 18 *) "    }";
    (* 19 *) EmptyString;
    (* 20 *) "    for node in model.graph.node:";
    (* 21 *) "        layer = {";
    (* 22 *) "            " ++ dq ++ "name" ++ dq ++ ": node.name,";
    (* 23 *) "            " ++ dq ++ "type" ++ dq ++ ": node.op_type,";
    (* 24 *) "            " ++ dq ++ "parameters" ++ dq ++ ": {},";
    (* 25 *) "            " ++ dq ++ "weights" ++ dq ++ ": None";
    (* 26 *) "        }";
    (* 27 *) "        output[" ++ dq ++ "layers" ++ dq ++ "].append(layer)";
    (* 28 *) EmptyString;
    (* 29 *) "    print(json.dumps(output, indent=4))";
    (* 30 *) EmptyString;
    (* 31 *) "if __name__ == " ++ dq ++ "__main__" ++ dq ++ ":";
    (* 32 *) "    main()"
  ]%string.

(** The interpreter's rendering of an uncaught error. *)
Variable traceback : error exn -> str.

Definition report (e : error exn) (w : io) : io :=
  {| stdout := stdout w;
     stderr := stderr w ++ traceback e;
     opened := opened w;
     dumped := dumped w |}.

Definition run_script : outcome io exn :=
  python_run report source main start.

End Script.

(** ** The document a run emits

    [document_of model] is the object [main] hands to [json.dumps] when
    it gets that far. *)
Definition document_of (model : ModelProto.t) : value :=
  VDict [ (lit "name", VStr (GraphProto.name (ModelProto.graph model)));
          (lit "type", VStr (lit "ONNX"));
          (lit "architecture", VStr (ModelProto.domain model));
          (lit "layers",
           VList (map layer_of (GraphProto.node (ModelProto.graph model)))) ].

(** A layer record as the interface text describes it: [parameters]
    empty and no [weights] key. *)
Definition weights_absent (rec : value) : Prop :=
  get rec (lit "parameters") = Some (VDict []) /\
  get rec (lit "weights") = None.

(** A layer record as the script writes it: [parameters] empty and
    [weights] present, holding [None] (JSON [null]). *)
Definition weights_null (rec : value) : Prop :=
  get rec (lit "parameters") = Some (VDict []) /\
  get rec (lit "weights") = Some VNone.

(** [needle in haystack] *)
Fixpoint starts_with (needle haystack : str) : bool :=
  match needle, haystack with
  | [], _ => true
  | _ :: _, [] => false
  | c :: n', d :: h' => (c =? d)%N && starts_with n' h'
  end.

Fixpoint contains (needle haystack : str) : bool :=
  starts_with needle haystack ||
  match haystack with
  | [] => false
  | _ :: h' => contains needle h'
  end.

(** ** A concrete run: a model of two nodes in the file [model.onnx] *)
Module Sample.
Definition conv : NodeProto.t :=
  {| NodeProto.name := lit "conv1"; NodeProto.op_type := lit "Conv" |}.
Definition relu : NodeProto.t :=
  {| NodeProto.name := lit "act1"; NodeProto.op_type := lit "Relu" |}.
Definition model : ModelProto.t :=
  {| ModelProto.graph :=
       {| GraphProto.name := lit "tiny"; GraphProto.node := [conv; relu] |};
     ModelProto.domain := lit "ai.example" |}.

Definition path : str := lit "model.onnx".
Definition argv : list str := [lit "parse_onnx.py"; path].
Definition argv_extra : list str :=
  [lit "./parse_onnx.py"; path; lit "--verbose"; lit "other.onnx"].
Definition argv_none : list str := [lit "parse_onnx.py"].

(** One file on disk, holding the bytes [8; 7]. *)
Definition disk (p : str) : option (list N) :=
  if str_eqb p path then Some [8%N; 7%N] else None.
(** The same file next to another one. *)
Definition disk_more (p : str) : option (list N) :=
  if str_eqb p path then Some [8%N; 7%N]
  else if str_eqb p (lit "other.onnx") then Some [1%N]
  else None.
Definition empty_disk (p : str) : option (list N) := None.

(** A deserialiser that reads [8; 7] as [model] and refuses the rest. *)
Definition parse (bytes : list N) : option ModelProto.t :=
  match bytes with
  | [8%N; 7%N] => Some model
  | _ => None
  end.

Definition traceback (e : error exn) : str :=
  lit "Traceback (most recent call last):".

(** What the run on [argv], [disk] and [parse] prints, line by line. *)
Definition printed : list string := [
    "{";
    "    " ++ dq ++ "name" ++ dq ++ ": " ++ dq ++ "tiny" ++ dq ++ ",";
    "    " ++ dq ++ "type" ++ dq ++ ": " ++ dq ++ "ONNX" ++ dq ++ ",";
    "    " ++ dq ++ "architecture" ++ dq ++ ": " ++ dq ++ "ai.example" ++ dq ++ ",";
    "    " ++ dq ++ "layers" ++ dq ++ ": [";
    "        {";
    "            " ++ dq ++ "name" ++ dq ++ ": " ++ dq ++ "conv1" ++ dq ++ ",";
    "            " ++ dq ++ "type" ++ dq ++ ": " ++ dq ++ "Conv" ++ dq ++ ",";
    "            " ++ dq ++ "parameters" ++ dq ++ ": {},";
    "            " ++ dq ++ "weights" ++ dq ++ ": null";
    "        },";
    "        {";
    "            " ++ dq ++ "name" ++ dq ++ ": " ++ dq ++ "act1" ++ dq ++ ",";
    "            " ++ dq ++ "type" ++ dq ++ ": " ++ dq ++ "Relu" ++ dq ++ ",";
    "            " ++ dq ++ "parameters" ++ dq ++ ": {},";
    "            " ++ dq ++ "weights" ++ dq ++ ": null";
    "        }";
    "    ]";
    "}"
  ]%string.
End Sample.

(** ** Shapes of the printed text *)

(** A character between space and tilde. *)
Definition printable (c : N) : bool := ((32 <=? c) && (c <=? 126))%N.

(** A printable character or a line break. *)
Definition ascii_text (c : N) : bool := (c =? 10)%N || printable c.



(** ** More concrete runs *)
Module Garbled.
(** The file is there but the deserialiser refuses its bytes. *)
Definition disk (p : str) : option (list N) :=
  if str_eqb p Sample.path then Some [0%N; 255%N] else None.

End Garbled.

End ParseOnnx.

(* ===================================================================== *)
(** * [tools/parse_onnx.py] on models that keep data outside the file

    [onnx.load(path)] is called with its defaults, so after it has
    deserialised the model file it also loads the external data: for
    every tensor of the model that is stored outside the file it looks
    that file up next to the model file and reads it, and a file that is
    not there is a [ValidationError].  The script never reads a tensor,
    but the load does.  [ParseOnnx.onnx_load] is the load of a model file
    that names no such data; here is the load in general, and [main] on
    it. *)
(* ===================================================================== *)

Module ParseOnnxExternal.
Import Py ParseOnnx.
Local Open Scope py_scope.

Section Script.
Variable argv : list str.
Variable disk : str -> option (list N).
Variable parse : list N -> option ModelProto.t.

(** The external-data files that the tensors in a model file name: the
    path of the model file and its bytes give the paths of those files,
    resolved against the model file's directory, in the order of the
    tensors. *)
Variable external : str -> list N -> list str.

(** [load_external_data_for_model]: the files are looked up and read one
    after the other; the first that is missing ends the load. *)
Definition load_external_data (locations : list str) : M unit :=
  for_each locations tt
    (fun location _ =>
       modify (fun w => {| stdout := stdout w;
                           stderr := stderr w;
                           opened := opened w ++ [location];
                           dumped := dumped w |}) ;;;
       match disk location with
       | None => raise (ValidationError location)
       | Some _ => ret tt
       end).

(** [onnx.load(path)], with [load_external_data=True] as is its default. *)
Definition onnx_load (path : str) : M ModelProto.t :=
  modify (fun w => {| stdout := stdout w;
                      stderr := stderr w;
                      opened := opened w ++ [path];
                      dumped := dumped w |}) ;;;
  match disk path with
  | None => raise (FileNotFoundError path)
  | Some bytes =>
      match parse bytes with
      | None => raise DecodeError
      | Some model =>
          load_external_data (external path bytes) ;;;
          ret model
      end
  end.

(** Lines 5-29, as in [ParseOnnx.main]. *)
Definition main : M unit :=
  if List.length argv <? 2 then
    print usage
    (* return *)
  else
    model_path <- subscript argv 1 ;;
    model <- onnx_load model_path ;;
    let output := output_of model in
    output <- for_each (GraphProto.node (ModelProto.graph model)) output
                (fun node output =>
                   let layer := layer_of node in
                   append_at output (lit "layers") layer) ;;
    text <- json_dumps output 4 ;;
    print text.

Variable traceback : error exn -> str.

(** [python parse_onnx.py ...] *)
Definition run_script : outcome io exn :=
  python_run (report traceback) source main start.

End Script.

(** The files of [locations] that a load touches: all of them up to and
    with the first that is missing. *)
Fixpoint touched (disk : str -> option (list N)) (locations : list str)
  : list str :=
  match locations with
  | [] => []
  | location :: rest =>
      match disk location with
      | None => [location]
      | Some _ => location :: touched disk rest
      end
  end.

(** The first of [locations] that is missing, if one is. *)
Fixpoint missing (disk : str -> option (list N)) (locations : list str)
  : option str :=
  match locations with
  | [] => None
  | location :: rest =>
      match disk location with
      | None => Some location
      | Some _ => missing disk rest
      end
  end.

(** ** A concrete run: [model.onnx] keeps its weights in [weights.bin] *)
Module Stored.
Definition weights : str := lit "weights.bin".

Definition external (path : str) (bytes : list N) : list str := [weights].

(** The model file and its data file. *)
Definition disk (p : str) : option (list N) :=
  if str_eqb p Sample.path then Some [8%N; 7%N]
  else if str_eqb p weights then Some [1%N; 2%N; 3%N]
  else None.

(** The two files next to a third. *)
Definition disk_more (p : str) : option (list N) :=
  if str_eqb p Sample.path then Some [8%N; 7%N]
  else if str_eqb p weights then Some [1%N; 2%N; 3%N]
  else if str_eqb p (lit "other.onnx") then Some [1%N]
  else None.

(** The same model file, byte for byte, without the data file. *)
Definition disk_without_data (p : str) : option (list N) :=
  if str_eqb p Sample.path then Some [8%N; 7%N] else None.
End Stored.

End ParseOnnxExternal.

(* ===================================================================== *)
(** * [tools/create_and_save_model.py]: the build-train-save demo *)
(* ===================================================================== *)

Module CreateAndSaveModel.
Import Py.
Import Layout (dq).
Local Open Scope py_scope.

(** ** The text of the file, line by line ([dq] is a double quote) *)
Definition source : list string := [
    (*  1 *) "import tensorflow as tf";
    (*  2 *) "import os";
    (*  3 *) EmptyString;
    (*  4 *) "# 1. Define a simple Keras model";
    (*  5 *) "def create_simple_model():";
    (*  6 *) "    model = tf.keras.Sequential([";
    (*  7 *) "        tf.keras.layers.Dense(10, activation='relu', input_shape=(5,)),";
    (*  8 *) "        tf.keras.layers.Dense(1, activation='sigmoid')";
    (*  9 *) "    ])";
    (* 10 *) "    return model";
    (* 11 *) EmptyString;
    (* 12 *) "# Create the model";
    (* 13 *) "model = create_simple_model()";
    (* 14 *) EmptyString;
    (* 15 *) "# Compile the model (optional for saving, but good practice if you intend to train)";
    (* 16 *) "model.compile(optimizer='adam', loss='binary_crossentropy', metrics=['accuracy'])";
    (* 17 *) EmptyString;
    (* 18 *) "# 2. Create some dummy data for training (optional, but makes the model more " ++ dq ++ "complete" ++ dq ++ ")";
    (* 19 *) "import numpy as np";
    (* 20 *) "x_train = np.random.rand(100, 5).astype(np.float32)";
    (* 21 *) "y_train = np.random.randint(0, 2, (100, 1)).astype(np.float32)";
    (* 22 *) EmptyString;
    (* 23 *) "# Train the model (optional)";
    (* 24 *) "print(" ++ dq ++ "Training the model..." ++ dq ++ ")";
    (* 25 *) "model.fit(x_train, y_train, epochs=5, verbose=0)";
    (* 26 *) "print(" ++ dq ++ "Model training complete." ++ dq ++ ")";
    (* 27 *) EmptyString;
    (* 28 *) "# 3. Define the directory to save the model";
    (* 29 *) "model_save_path = " ++ dq ++ "./simple_tf_model" ++ dq;
    (* 30 *) EmptyString;
    (* 31 *) "# Save the model in the SavedModel format";
    (* 32 *) "# This will create a directory named 'simple_tf_model' containing 'saved_model.pb'";
    (* 33 *) "print(f" ++ dq ++ "Saving the model to: {model_save_path}" ++ dq ++ ")";
    (* 34 *) "tf.saved_model.save(model, model_save_path)";
    (* 35 *) "print(" ++ dq ++ "Model saved successfully." ++ dq ++ ")";
    (* 36 *) EmptyString;
    (* 37 *) "# 4. Verify the saved model (optional)";
    (* 38 *) "print(f" ++ dq ++ "Contents of the saved model directory '{model_save_path}':" ++ dq ++ ")";
    (* 39 *) "for root, dirs, files in os.walk(model_save_path):";
    (* 40 *) "    level = root.replace(model_save_path, '').count(os.sep)";
    (* 41 *) "    indent = ' ' * 4 * (level)";
    (* 42 *) "    print(f'{indent}{os.path.basename(root)}/')";
    (* 43 *) "    subindent = ' ' * 4 * (level + 1)";
    (* 44 *) "    for f in files:";
    (* 45 *) "        print(f'{subindent}{f}')";
    (* 46 *) EmptyString;
    (* 47 *) "# 5. Load the model back (demonstration)";
    (* 48 *) "print(f" ++ dq ++ "\nLoading the model from: {model_save_path}" ++ dq ++ ")";
    (* 49 *) "loaded_model = tf.saved_model.load(model_save_path)";
    (* 50 *) "print(" ++ dq ++ "Model loaded successfully." ++ dq ++ ")";
    (* 51 *) EmptyString;
    (* 52 *) "# You can now use the loaded model for inference";
    (* 53 *) "# For example, if you want to make predictions:";
    (* 54 *) " dummy_input = np.random.rand(1, 5).astype(np.float32)";
    (* 55 *) "print(f" ++ dq ++ "Dummy input for prediction: {dummy_input}" ++ dq ++ ")";
    (* 56 *) "# The loaded model might expose its call function directly or through a signature";
    (* 57 *) "# For a simple Keras model saved this way, you can often call it directly";
    (* 58 *) "predictions = loaded_model(dummy_input)";
    (* 59 *) "print(f" ++ dq ++ "Predictions from loaded model: {predictions.numpy()}" ++ dq ++ ")";
    (* 60 *) EmptyString
  ]%string.

(** The same text with the leading spaces of line [lineno] removed. *)
Fixpoint unindent_line (lineno : nat) (lines : list string) : list string :=
  match lines, lineno with
  | [], _ => []
  | l :: rest, 1 => snd (Layout.split_indent l) :: rest
  | l :: rest, _ => l :: unindent_line (pred lineno) rest
  end.

(** ** Library calls

    The script's statements are calls into tensorflow, numpy and os.
    What those libraries compute is outside the repository; a run is
    described by the calls it makes, in order, with their arguments.  A
    value that a call returns is opaque and is referred to by the
    position of that call in the run. *)
Definition handle := nat.

Inductive layer :=
| Dense (units : nat) (activation : str) (input_shape : option (list nat)).

Inductive libcall :=
| Import_ (module : str)
| Sequential (layers : list layer)
| Compile (model : handle) (optimizer loss : str) (metrics : list str)
| RandomRand (shape : list nat)
| RandomRandint (low high : nat) (size : list nat)
| Astype (array : handle) (dtype : str)
| Fit (model x y : handle) (epochs verbose : nat)
| SavedModelSave (obj : handle) (export_dir : str)
| OsWalk (top : str)
| SavedModelLoad (export_dir : str)
| Call (fn arg : handle)
| Numpy (tensor : handle).

(** The only exception the script can meet is one raised inside a
    library call. *)
Inductive exn :=
| LibraryError (call : libcall).

Record io := {
  stdout : str;
  stderr : str;
  calls : list libcall
}.

Definition start : io := {| stdout := []; stderr := []; calls := [] |}.

Definition M := Py.M io exn.

Definition print (s : str) : M unit :=
  modify (fun w => {| stdout := stdout w ++ s ++ NL;
                      stderr := stderr w;
                      calls := calls w |}).

(** A computation that writes to standard output and does nothing
    else: it makes no library call and raises nothing. *)
Definition only_prints (c : M unit) : Prop :=
  forall w : io, exists out : str,
    c w = ({| stdout := out; stderr := stderr w; calls := calls w |}, inr tt).

(** ** String helpers of the directory listing (lines 39-45) *)

Fixpoint strip_prefix (p s : str) : option str :=
  match p, s with
  | [], _ => Some s
  | _ :: _, [] => None
  | c :: p', d :: s' => if (c =? d)%N then strip_prefix p' s' else None
  end.

(** [s.replace(old, new)] for a non-empty [old]. *)
Fixpoint replace_from (fuel : nat) (s old new : str) : str :=
  match fuel, s with
  | 0, _ => s
  | _, [] => []
  | S fuel', c :: s' =>
      match strip_prefix old s with
      | Some rest => new ++ replace_from fuel' rest old new
      | None => c :: replace_from fuel' s' old new
      end
  end.

Definition replace (s old new : str) : str :=
  replace_from (List.length s) s old new.

(** [s.count(c)] for a one-character [c]. *)
Definition count (s : str) (c : N) : nat :=
  List.length (filter (N.eqb c) s).

(** [os.sep] and [os.path.basename] as on POSIX. *)
Definition os_sep : N := 47.

Fixpoint basename_from (s : str) (acc : str) : str :=
  match s with
  | [] => acc
  | c :: s' => if (c =? os_sep)%N then basename_from s' [] else basename_from s' (acc ++ [c])
  end.

Definition basename (p : str) : str := basename_from p [].

(** [' ' * n] *)
Definition spaces (n : nat) : str := repeat 32%N n.

Section Script.
(** What the libraries do in a run: whether a call raises, what
    [os.walk] yields, and how a value is formatted in an f-string. *)
Variable raises : libcall -> bool.
Variable walk : list (str * list str * list str).
Variable format : handle -> str.

Definition call (c : libcall) : M handle :=
  fun w =>
    if raises c then (w, inl (LibraryError c))
    else ({| stdout := stdout w; stderr := stderr w; calls := calls w ++ [c] |},
          inr (List.length (calls w))).

(** Lines 5-10. *)
Definition create_simple_model : M handle :=
  model <- call (Sequential
                   [ Dense 10 (lit "relu") (Some [5]);
                     Dense 1 (lit "sigmoid") None ]) ;;
  ret model.

(** The loop of lines 39-45 over what [os.walk] yields. *)
Definition listing (model_save_path : str) : M unit :=
  for_each walk tt
    (fun '(root, dirs, files) _ =>
       let level := count (replace root model_save_path []) os_sep in
       let indent := spaces (4 * level) in
       print (indent ++ basename root ++ lit "/") ;;;
       let subindent := spaces (4 * (level + 1)) in
       for_each files tt (fun f _ => print (subindent ++ f))).

(** The statements of the file, top to bottom. *)
Definition body : M unit :=
  _ <- call (Import_ (lit "tensorflow")) ;;
  _ <- call (Import_ (lit "os")) ;;
  model <- create_simple_model ;;
  _ <- call (Compile model (lit "adam") (lit "binary_crossentropy")
               [lit "accuracy"]) ;;
  _ <- call (Import_ (lit "numpy")) ;;
  a <- call (RandomRand [100; 5]) ;;
  x_train <- call (Astype a (lit "float32")) ;;
  a <- call (RandomRandint 0 2 [100; 1]) ;;
  y_train <- call (Astype a (lit "float32")) ;;
  print (lit "Training the model...") ;;;
  _ <- call (Fit model x_train y_train 5 0) ;;
  print (lit "Model training complete.") ;;;
  let model_save_path := lit "./simple_tf_model" in
  print (lit "Saving the model to: " ++ model_save_path) ;;;
  _ <- call (SavedModelSave model model_save_path) ;;
  print (lit "Model saved successfully.") ;;;
  print (lit "Contents of the saved model directory '" ++ model_save_path
         ++ lit "':") ;;;
  _ <- call (OsWalk model_save_path) ;;
  listing model_save_path ;;;
  print (NL ++ lit "Loading the model from: " ++ model_save_path) ;;;
  loaded_model <- call (SavedModelLoad model_save_path) ;;
  print (lit "Model loaded successfully.") ;;;
  a <- call (RandomRand [1; 5]) ;;
  dummy_input <- call (Astype a (lit "float32")) ;;
  print (lit "Dummy input for prediction: " ++ format dummy_input) ;;;
  predictions <- call (Call loaded_model dummy_input) ;;
  a <- call (Numpy predictions) ;;
  print (lit "Predictions from loaded model: " ++ format a).

(** The interpreter's rendering of an uncaught error. *)
Variable traceback : error exn -> str.

Definition report (e : error exn) (w : io) : io :=
  {| stdout := stdout w;
     stderr := stderr w ++ traceback e;
     calls := calls w |}.

(** What the interpreter says of the file as it is. *)
Definition refusal : error exn :=
  Refused (Layout.IndentationError Layout.unexpected_indent 54).

(** [python create_and_save_model.py] *)
Definition run_script : outcome io exn :=
  python_run report source body start.

(** The same run on the text with line 54 moved to column 0. *)
Definition run_unindented : outcome io exn :=
  python_run report (unindent_line 54 source) body start.

End Script.

(** ** The effect of the statements, said without the monad *)

(** [p in s], for a non-empty [p]. *)
Fixpoint occurs (p s : str) : bool :=
  match strip_prefix p s with
  | Some _ => true
  | None =>
      match s with
      | [] => false
      | _ :: s' => occurs p s'
      end
  end.

(** The lines the loop of lines 39-45 writes for one entry of [os.walk]:
    the directory, then its files. *)
Definition entry_text (model_save_path : str) (entry : str * list str * list str)
  : str :=
  let '(root, _, files) := entry in
  let level := count (replace root model_save_path []) os_sep in
  (spaces (4 * level) ++ basename root ++ lit "/") ++ NL
  ++ flat_map (fun f => (spaces (4 * (level + 1)) ++ f) ++ NL) files.

Definition listing_text (walk : list (str * list str * list str))
    (model_save_path : str) : str :=
  flat_map (entry_text model_save_path) walk.

(** The library calls of the file in the order of its statements.  A
    handle is the position of the call that returned the value. *)
Definition script_calls : list libcall :=
  [ Import_ (lit "tensorflow");
    Import_ (lit "os");
    Sequential [ Dense 10 (lit "relu") (Some [5]);
                 Dense 1 (lit "sigmoid") None ];
    Compile 2 (lit "adam") (lit "binary_crossentropy") [lit "accuracy"];
    Import_ (lit "numpy");
    RandomRand [100; 5];
    Astype 5 (lit "float32");
    RandomRandint 0 2 [100; 1];
    Astype 7 (lit "float32");
    Fit 2 6 8 5 0;
    SavedModelSave 2 (lit "./simple_tf_model");
    OsWalk (lit "./simple_tf_model");
    SavedModelLoad (lit "./simple_tf_model");
    RandomRand [1; 5];
    Astype 13 (lit "float32");
    Call 12 14;
    Numpy 15 ].

(** The calls of [cs] made before the first one that raises, and that
    one. *)
Fixpoint until_raise (raises : libcall -> bool) (cs : list libcall)
  : list libcall * option libcall :=
  match cs with
  | [] => ([], None)
  | c :: cs' =>
      if raises c then ([], Some c)
      else let (made, failed) := until_raise raises cs' in (c :: made, failed)
  end.

(** ** A concrete library: [tf.saved_model.load] raises *)
Module Broken.
Definition raises (c : libcall) : bool :=
  match c with
  | SavedModelLoad _ => true
  | _ => false
  end.
Definition walk : list (str * list str * list str) :=
  [ (lit "./simple_tf_model", [lit "variables"], [lit "saved_model.pb"]);
    (lit "./simple_tf_model/variables", [], [lit "variables.index"]) ].
Definition format (h : handle) : str := lit "[[0.5]]".
End Broken.

End CreateAndSaveModel.

(* ===================================================================== *)
(** * The indentation check on small files *)
(* ===================================================================== *)

Module LayoutSpec.
Import Layout.
Local Open Scope string_scope.

Example block_accepted :
  check ["def f():"; "    if x:"; "        return 1"; "    return 2"; "f()"] = None.
Proof. reflexivity. Qed.

Example stray_indent_refused :
  check ["x = 1"; " y = 2"] = Some (IndentationError unexpected_indent 2).
Proof. reflexivity. Qed.

Example missing_block_refused :
  check ["if x:"; "y = 1"] = Some (IndentationError expected_block 2).
Proof. reflexivity. Qed.

Example bad_unindent_refused :
  check ["if x:"; "    y = 1"; "  z = 2"] = Some (IndentationError bad_unindent 3).
Proof. reflexivity. Qed.

(** Inside brackets, and on blank and comment lines, indentation is free;
    a colon inside a string or a comment opens no block. *)
Example continuation_accepted :
  check ["x = ["; "        1,"; "  2]"; "      # note:"; ""; "print('a:')  # b:"; "y = 3"]
  = None.
Proof. reflexivity. Qed.

(** A statement that starts to the right of the current block, when the
    line before it did not end in a colon, is refused there, whatever
    follows it in the file. *)
Lemma stray_indent_is_refused
    (st : state) (lineno col : nat) (l : string) (c : ascii) (body : string)
    (rest : list string) :
  nesting st = 0 ->
  after_colon st = false ->
  split_indent l = (col, String c body) ->
  (c =? hash)%char = false ->
  hd 0 (stack st) < col ->
  check_from st lineno (l :: rest)
  = Some (IndentationError unexpected_indent lineno).
Proof.
  intros Hn Ha Hs Hc Hlt. simpl. unfold step, enter.
  rewrite Hn, Hs, Hc, Ha.
  apply Nat.ltb_lt in Hlt. rewrite Hlt. reflexivity.
Qed.

End LayoutSpec.

(* ===================================================================== *)
(** * Properties of [tools/parse_onnx.py] *)
(* ===================================================================== *)

Module ParseOnnxSpec.
Import Py ParseOnnx.
Local Open Scope py_scope.

(** The file's block structure is accepted, so a run reaches [main]. *)
Lemma source_accepted : Layout.check source = None.
Proof. vm_compute. reflexivity. Qed.

Lemma run_script_main argv disk parse tb :
  run_script argv disk parse tb =
  match main argv disk parse start with
  | (w, inr tt) => {| final := w; uncaught := None; exit_status := 0 |}
  | (w, inl e) =>
      {| final := report tb (Raised e) w;
         uncaught := Some (Raised e);
         exit_status := 1 |}
  end.
Proof.
  unfold run_script, python_run. rewrite source_accepted. reflexivity.
Qed.

(** The count check of line 6, read off [sys.argv[1]]. *)
Lemma short_argv (argv : list str) :
  (List.length argv <? 2) =
  match nth_error argv 1 with Some _ => false | None => true end.
Proof.
  destruct argv as [|a0 [|a1 rest]]; reflexivity.
Qed.

(** Each turn of the loop of lines 20-27 extends the list under [layers]
    by the record of its node and touches nothing else: neither the
    other keys of [output] nor the process state. *)
Lemma loop_appends (nm ar : str) (nodes : list NodeProto.t) :
  forall (l : list value) (w : io),
    for_each nodes
      (VDict [ (lit "name", VStr nm); (lit "type", VStr (lit "ONNX"));
               (lit "architecture", VStr ar); (lit "layers", VList l) ])
      (fun node output => append_at output (lit "layers") (layer_of node)) w
    = (w, inr (VDict [ (lit "name", VStr nm); (lit "type", VStr (lit "ONNX"));
                       (lit "architecture", VStr ar);
                       (lit "layers", VList (l ++ map layer_of nodes)) ])).
Proof.
  induction nodes as [|nd nodes IH]; intros l w.
  - simpl. now rewrite app_nil_r.
  - change (for_each nodes
              (VDict [ (lit "name", VStr nm); (lit "type", VStr (lit "ONNX"));
                       (lit "architecture", VStr ar);
                       (lit "layers", VList (l ++ [layer_of nd])) ])
              (fun node output => append_at output (lit "layers") (layer_of node)) w
            = (w, inr (VDict [ (lit "name", VStr nm); (lit "type", VStr (lit "ONNX"));
                               (lit "architecture", VStr ar);
                               (lit "layers",
                                VList (l ++ map layer_of (nd :: nodes))) ]))).
    rewrite IH. simpl map. now rewrite <- app_assoc.
Qed.

Section Runs.
Variable argv : list str.
Variable disk : str -> option (list N).
Variable parse : list N -> option ModelProto.t.

Lemma main_no_argument :
  List.length argv < 2 ->
  main argv disk parse start
  = ({| stdout := usage ++ NL; stderr := []; opened := []; dumped := [] |},
     inr tt).
Proof.
  intros H. unfold main.
  apply Nat.ltb_lt in H. rewrite H. reflexivity.
Qed.

Lemma main_missing_file (p : str) :
  nth_error argv 1 = Some p -> disk p = None ->
  main argv disk parse start
  = ({| stdout := []; stderr := []; opened := [p]; dumped := [] |},
     inl (FileNotFoundError p)).
Proof.
  intros Hp Hd. unfold main, subscript, onnx_load.
  rewrite short_argv, Hp. unfold bind, ret, modify; simpl.
  rewrite Hd. reflexivity.
Qed.

Lemma main_undecodable (p : str) (bytes : list N) :
  nth_error argv 1 = Some p -> disk p = Some bytes -> parse bytes = None ->
  main argv disk parse start
  = ({| stdout := []; stderr := []; opened := [p]; dumped := [] |},
     inl DecodeError).
Proof.
  intros Hp Hd Hm. unfold main, subscript, onnx_load.
  rewrite short_argv, Hp. unfold bind, ret, modify; simpl.
  rewrite Hd, Hm. reflexivity.
Qed.

Lemma main_valid (p : str) (bytes : list N) (m : ModelProto.t) :
  nth_error argv 1 = Some p -> disk p = Some bytes -> parse bytes = Some m ->
  main argv disk parse start
  = ({| stdout := Json.dumps (document_of m) 4 ++ NL;
        stderr := [];
        opened := [p];
        dumped := [document_of m] |},
     inr tt).
Proof.
  intros Hp Hd Hm. unfold main, subscript, onnx_load.
  rewrite short_argv, Hp.
  unfold bind at 1 2 3. unfold ret at 1, modify at 1. simpl opened. simpl stdout. simpl stderr. simpl dumped.
  rewrite Hd, Hm. unfold ret at 1. unfold bind at 1.
  unfold output_of. rewrite loop_appends. 
  reflexivity.
Qed.

(** Every run ends in one of four ways. *)
Lemma main_cases :
  (List.length argv < 2 /\
   main argv disk parse start
   = ({| stdout := usage ++ NL; stderr := []; opened := []; dumped := [] |},
      inr tt))
  \/ (exists p e,
        nth_error argv 1 = Some p /\
        main argv disk parse start
        = ({| stdout := []; stderr := []; opened := [p]; dumped := [] |},
           inl e))
  \/ (exists p m,
        nth_error argv 1 = Some p /\
        main argv disk parse start
        = ({| stdout := Json.dumps (document_of m) 4 ++ NL;
              stderr := [];
              opened := [p];
              dumped := [document_of m] |},
           inr tt)).
Proof.
  destruct (nth_error argv 1) as [p|] eqn:Hp.
  - right.
    destruct (disk p) as [bytes|] eqn:Hd.
    + destruct (parse bytes) as [m|] eqn:Hm.
      * right. exists p, m. split; [reflexivity|]. now apply main_valid with bytes.
      * left. exists p, DecodeError. split; [reflexivity|].
        now apply main_undecodable with bytes.
    + left. exists p, (FileNotFoundError p). split; [reflexivity|].
      now apply main_missing_file.
  - left. apply nth_error_None in Hp.
    assert (H : List.length argv < 2) by lia.
    split; [exact H|]. now apply main_no_argument.
Qed.
End Runs.

(* ------------------------------------------------------------------- *)
(** ** The claims *)
(* ------------------------------------------------------------------- *)

(** C2, as worded: every record of the emitted [layers] array has an
    empty [parameters] and no [weights] key.  The script writes the key
    with the value [None], which [json.dumps] prints as [null]: on the
    sample run the first record has the key. *)
Lemma weights_key_is_emitted :
  ~ (forall doc recs,
        In doc (dumped (final (run_script Sample.argv Sample.disk
                                 Sample.parse Sample.traceback))) ->
        get doc (lit "layers") = Some (VList recs) ->
        Forall weights_absent recs).
Proof.
  intros H.
  specialize (H (document_of Sample.model)
                (map layer_of [Sample.conv; Sample.relu])).
  assert (Hin : In (document_of Sample.model)
                   (dumped (final (run_script Sample.argv Sample.disk
                                     Sample.parse Sample.traceback)))).
  { rewrite run_script_main.
    rewrite (@main_valid Sample.argv Sample.disk Sample.parse
               Sample.path [8%N; 7%N] Sample.model)
      by reflexivity.
    simpl. now left. }
  specialize (H Hin eq_refl).
  apply Forall_inv in H. destruct H as [_ H]. discriminate H.
Qed.

(** The text of the sample run, as [json.dumps(output, indent=4)] and
    [print] lay it out. *)
Example sample_run_prints :
  stdout (final (run_script Sample.argv Sample.disk Sample.parse
                   Sample.traceback))
  = flat_map (fun l => lit l ++ NL) Sample.printed.
Proof. vm_compute. reflexivity. Qed.

(** The text printed on that run holds the key followed by [null]. *)
Example weights_null_in_printed_text :
  contains (Json.encode_basestring_ascii (lit "weights") ++ lit ": null")
    (stdout (final (run_script Sample.argv Sample.disk Sample.parse
                      Sample.traceback))) = true.
Proof. vm_compute. reflexivity. Qed.

(** C2, amended: in every run, each record of the [layers] array handed
    to [json.dumps] has [parameters] equal to the empty object and
    [weights] present with the value [None] (JSON [null]). *)
Theorem layers_have_empty_parameters_and_null_weights
    argv disk parse tb (doc : value) :
  In doc (dumped (final (run_script argv disk parse tb))) ->
  exists recs,
    get doc (lit "layers") = Some (VList recs) /\
    Forall weights_null recs.
Proof.
  rewrite run_script_main.
  destruct (main_cases argv disk parse)
    as [[_ E] | [(p & e & _ & E) | (p & m & _ & E)]]; rewrite E; simpl.
  - intros [].
  - intros [].
  - intros [<- | []].
    exists (map layer_of (GraphProto.node (ModelProto.graph m))).
    split; [reflexivity|].
    apply Forall_forall. intros rec Hin.
    apply in_map_iff in Hin as (nd & <- & _).
    split; reflexivity.
Qed.

Lemma layers_have_empty_parameters_and_null_weights_witness :
  In (document_of Sample.model)
     (dumped (final (run_script Sample.argv Sample.disk Sample.parse
                       Sample.traceback)))
  /\ exists recs,
       get (document_of Sample.model) (lit "layers") = Some (VList recs) /\
       Forall weights_null recs.
Proof.
  assert (Hin : In (document_of Sample.model)
                   (dumped (final (run_script Sample.argv Sample.disk
                                     Sample.parse Sample.traceback)))).
  { vm_compute. left. reflexivity. }
  split; [exact Hin|].
  exact (@layers_have_empty_parameters_and_null_weights
           Sample.argv Sample.disk Sample.parse Sample.traceback
           (document_of Sample.model) Hin).
Defined.





(** C5: when [sys.argv[1]] names no file, [FileNotFoundError] leaves
    [onnx.load] and [main] uncaught: the process ends with status 1 and
    the traceback on standard error, and nothing was handed to
    [json.dumps] or printed. *)
Theorem missing_file_propagates argv disk parse tb (p : str) :
  nth_error argv 1 = Some p ->
  disk p = None ->
  let r := run_script argv disk parse tb in
  uncaught r = Some (Raised (FileNotFoundError p)) /\
  exit_status r = 1 /\
  stdout (final r) = [] /\
  dumped (final r) = [] /\
  stderr (final r) = tb (Raised (FileNotFoundError p)).
Proof.
  intros Hp Hd r. subst r.
  rewrite run_script_main, (@main_missing_file argv disk parse p Hp Hd).
  repeat split.
Qed.

Lemma missing_file_propagates_witness :
  let r := run_script Sample.argv Sample.empty_disk Sample.parse
             Sample.traceback in
  uncaught r = Some (Raised (FileNotFoundError Sample.path)) /\
  exit_status r = 1 /\
  stdout (final r) = [] /\
  dumped (final r) = [] /\
  stderr (final r) = Sample.traceback (Raised (FileNotFoundError Sample.path)).
Proof.
  exact (@missing_file_propagates
           Sample.argv Sample.empty_disk Sample.parse Sample.traceback
           Sample.path eq_refl eq_refl).
Defined.



(** C10: with fewer than two entries in [sys.argv] the script ends
    normally, with exit status 0; the usage line is on standard output
    and standard error stays empty. *)
Theorem no_argument_exits_zero argv disk parse tb :
  List.length argv < 2 ->
  let r := run_script argv disk parse tb in
  uncaught r = None /\
  exit_status r = 0 /\
  stdout (final r) = usage ++ NL /\
  stderr (final r) = [].
Proof.
  intros H r. subst r.
  rewrite run_script_main, (@main_no_argument argv disk parse H).
  repeat split.
Qed.

Lemma no_argument_exits_zero_witness :
  List.length Sample.argv_none < 2 /\
  let r := run_script Sample.argv_none Sample.disk Sample.parse
             Sample.traceback in
  uncaught r = None /\
  exit_status r = 0 /\
  stdout (final r) = usage ++ NL /\
  stderr (final r) = [].
Proof.
  split.
  - simpl. lia.
  - apply (@no_argument_exits_zero Sample.argv_none Sample.disk
             Sample.parse Sample.traceback).
    simpl. lia.
Defined.

End ParseOnnxSpec.

(* ===================================================================== *)
(** * Properties of [tools/create_and_save_model.py] *)
(* ===================================================================== *)

Module CreateAndSaveModelSpec.
Import Py CreateAndSaveModel.
Local Open Scope py_scope.

(** Line 54 starts in column 1 while the statements around it start in
    column 0 and no block is open: the file is refused. *)
Lemma source_refused :
  Layout.check source
  = Some (Layout.IndentationError Layout.unexpected_indent 54).
Proof. vm_compute. reflexivity. Qed.

Lemma line_54 :
  nth_error source 53
  = Some " dummy_input = np.random.rand(1, 5).astype(np.float32)"%string.
Proof. reflexivity. Qed.

(** Nothing but that one space separates the file from an accepted one. *)
Lemma unindented_text :
  unindent_line 54 source
  = firstn 53 source
    ++ ["dummy_input = np.random.rand(1, 5).astype(np.float32)"%string]
    ++ skipn 54 source.
Proof. vm_compute. reflexivity. Qed.

Lemma unindented_accepted : Layout.check (unindent_line 54 source) = None.
Proof. vm_compute. reflexivity. Qed.

Lemma only_prints_print (s : str) : only_prints (print s).
Proof.
  intros w. exists (stdout w ++ s ++ NL). reflexivity.
Qed.

Lemma only_prints_seq (c k : M unit) :
  only_prints c -> only_prints k -> only_prints (c ;;; k).
Proof.
  intros Hc Hk w. unfold bind.
  destruct (Hc w) as [out1 ->].
  destruct (Hk {| stdout := out1; stderr := stderr w; calls := calls w |})
    as [out2 ->].
  exists out2. reflexivity.
Qed.

Lemma only_prints_for_each {A} (xs : list A) (body : A -> unit -> M unit) :
  (forall x u, only_prints (body x u)) ->
  only_prints (for_each xs tt body).
Proof.
  intros Hb. induction xs as [|x xs IH]; intros w.
  - exists (stdout w). destruct w; reflexivity.
  - simpl. unfold bind.
    destruct (Hb x tt w) as [out1 ->].
    destruct (IH {| stdout := out1; stderr := stderr w; calls := calls w |})
      as [out2 ->].
    exists out2. reflexivity.
Qed.

Section Runs.
Variable raises : libcall -> bool.
Variable walk : list (str * list str * list str).
Variable format : handle -> str.
Variable traceback : error exn -> str.

(** A run of the file as it is executes no statement. *)
Lemma run_script_refused :
  run_script raises walk format traceback
  = {| final := {| stdout := []; stderr := traceback refusal; calls := [] |};
       uncaught := Some refusal;
       exit_status := 1 |}.
Proof.
  unfold run_script, python_run. rewrite source_refused. reflexivity.
Qed.

(** The listing loop prints and does nothing else. *)
Lemma listing_only_prints (path : str) : only_prints (listing walk path).
Proof.
  unfold listing. apply only_prints_for_each.
  intros [[root dirs] files] u.
  apply only_prints_seq.
  - apply only_prints_print.
  - apply only_prints_for_each. intros f u'. apply only_prints_print.
Qed.

(** With the stray space of line 54 gone and no library call raising,
    the run goes through the whole file and ends with status 0.  Its
    library calls are, in order: the model of lines 6-9 built and
    compiled, [fit] with [epochs=5] on [rand(100, 5)] and
    [randint(0, 2, (100, 1))], the save to [./simple_tf_model], the
    walk, the load from the same path, and one call of the loaded
    model on [rand(1, 5)].  (A handle is the position of the call
    that returned the value.) *)
Lemma unindented_run :
  exists out,
    run_unindented (fun _ => false) walk format traceback
    = {| final :=
           {| stdout := out;
              stderr := [];
              calls :=
                [ Import_ (lit "tensorflow");
                  Import_ (lit "os");
                  Sequential [ Dense 10 (lit "relu") (Some [5]);
                               Dense 1 (lit "sigmoid") None ];
                  Compile 2 (lit "adam") (lit "binary_crossentropy")
                    [lit "accuracy"];
                  Import_ (lit "numpy");
                  RandomRand [100; 5];
                  Astype 5 (lit "float32");
                  RandomRandint 0 2 [100; 1];
                  Astype 7 (lit "float32");
                  Fit 2 6 8 5 0;
                  SavedModelSave 2 (lit "./simple_tf_model");
                  OsWalk (lit "./simple_tf_model");
                  SavedModelLoad (lit "./simple_tf_model");
                  RandomRand [1; 5];
                  Astype 13 (lit "float32");
                  Call 12 14;
                  Numpy 15 ] |};
         uncaught := None;
         exit_status := 0 |}.
Proof.
  unfold run_unindented, python_run. rewrite unindented_accepted.
  unfold body.
  cbn -[listing]. unfold bind at 1.
  match goal with
  | |- context [listing walk ?p ?w] =>
      destruct (listing_only_prints p w) as [out E]; rewrite E
  end.
  cbn. eexists. reflexivity.
Qed.

End Runs.

(* ----------------------------------------------------------------- *)
(** ** The claims *)
(* ----------------------------------------------------------------- *)

(** C1: a run of the demo is said to leave a saved model under
    [./simple_tf_model], to load it back and to call it once.  The
    file as it is never gets that far: the interpreter refuses it for
    the indentation of line 54 and exits with status 1, and no save,
    load or model call was made. *)
Theorem demo_saves_and_reloads_nothing
    (raises : libcall -> bool) (walk : list (str * list str * list str))
    (format : handle -> str) (traceback : error exn -> str) :
  let r := run_script raises walk format traceback in
  uncaught r = Some refusal /\
  exit_status r = 1 /\
  (forall obj dir, ~ In (SavedModelSave obj dir) (calls (final r))) /\
  (forall dir, ~ In (SavedModelLoad dir) (calls (final r))) /\
  (forall fn arg, ~ In (Call fn arg) (calls (final r))).
Proof.
  cbv zeta. rewrite (@run_script_refused raises walk format traceback). simpl.
  repeat split; intros; intros [].
Qed.

(** C7: the demo is said to end with one inference call whose value
    lies between 0 and 1.  The run of the file as it is calls no
    model, reads no tensor and prints nothing on standard output. *)
Theorem demo_makes_no_prediction
    (raises : libcall -> bool) (walk : list (str * list str * list str))
    (format : handle -> str) (traceback : error exn -> str) :
  let r := run_script raises walk format traceback in
  (forall fn arg, ~ In (Call fn arg) (calls (final r))) /\
  (forall tensor, ~ In (Numpy tensor) (calls (final r))) /\
  stdout (final r) = [].
Proof.
  cbv zeta. rewrite (@run_script_refused raises walk format traceback). simpl.
  repeat split; intros; intros [].
Qed.

(** C8: the demo is said to train for five epochs on random data.  The
    run of the file as it is draws no random array and calls [fit]
    with no number of epochs at all: it makes no library call. *)
Theorem demo_never_trains
    (raises : libcall -> bool) (walk : list (str * list str * list str))
    (format : handle -> str) (traceback : error exn -> str) :
  let r := run_script raises walk format traceback in
  (forall model x y epochs verbose,
      ~ In (Fit model x y epochs verbose) (calls (final r))) /\
  (forall shape, ~ In (RandomRand shape) (calls (final r))) /\
  calls (final r) = [].
Proof.
  cbv zeta. rewrite (@run_script_refused raises walk format traceback). simpl.
  repeat split; intros; intros [].
Qed.

End CreateAndSaveModelSpec.

(* ===================================================================== *)
(** * Further properties of [tools/parse_onnx.py] *)
(* ===================================================================== *)

Module ParseOnnxMore.
Import Py ParseOnnx ParseOnnxSpec.
Local Open Scope py_scope.

(** ** How a run can end *)

(** The four ways a run can end, with the exception named. *)
Lemma run_cases argv disk parse tb :
  let r := run_script argv disk parse tb in
  (nth_error argv 1 = None /\
   r = {| final := {| stdout := usage ++ NL; stderr := []; opened := [];
                      dumped := [] |};
          uncaught := None; exit_status := 0 |})
  \/ (exists p,
        nth_error argv 1 = Some p /\ disk p = None /\
        r = {| final := {| stdout := []; stderr := tb (Raised (FileNotFoundError p));
                           opened := [p]; dumped := [] |};
               uncaught := Some (Raised (FileNotFoundError p));
               exit_status := 1 |})
  \/ (exists p bytes,
        nth_error argv 1 = Some p /\ disk p = Some bytes /\ parse bytes = None /\
        r = {| final := {| stdout := []; stderr := tb (Raised DecodeError);
                           opened := [p]; dumped := [] |};
               uncaught := Some (Raised DecodeError);
               exit_status := 1 |})
  \/ (exists p bytes m,
        nth_error argv 1 = Some p /\ disk p = Some bytes /\ parse bytes = Some m /\
        r = {| final := {| stdout := Json.dumps (document_of m) 4 ++ NL;
                           stderr := []; opened := [p];
                           dumped := [document_of m] |};
               uncaught := None; exit_status := 0 |}).
Proof.
  cbv zeta. rewrite run_script_main.
  destruct (nth_error argv 1) as [p|] eqn:Hp.
  - right. destruct (disk p) as [bytes|] eqn:Hd.
    + destruct (parse bytes) as [m|] eqn:Hm.
      * right; right. exists p, bytes, m.
        rewrite (@main_valid argv disk parse p bytes m Hp Hd Hm). auto.
      * right; left. exists p, bytes.
        rewrite (@main_undecodable argv disk parse p bytes Hp Hd Hm). auto.
    + left. exists p.
      rewrite (@main_missing_file argv disk parse p Hp Hd). auto.
  - left. split; [reflexivity|].
    assert (H : List.length argv < 2) by (apply nth_error_None in Hp; lia).
    rewrite (@main_no_argument argv disk parse H). reflexivity.
Qed.

(** X1: a file that is there but does not deserialise ends the run like a
    missing one: [DecodeError] is uncaught, the status is 1, the file
    was opened, and nothing reached [json.dumps] or standard output. *)
Theorem undecodable_file_propagates argv disk parse tb (p : str) (bytes : list N) :
  nth_error argv 1 = Some p ->
  disk p = Some bytes ->
  parse bytes = None ->
  let r := run_script argv disk parse tb in
  uncaught r = Some (Raised DecodeError) /\
  exit_status r = 1 /\
  opened (final r) = [p] /\
  stdout (final r) = [] /\
  dumped (final r) = [] /\
  stderr (final r) = tb (Raised DecodeError).
Proof.
  intros Hp Hd Hm r. subst r.
  rewrite run_script_main, (@main_undecodable argv disk parse p bytes Hp Hd Hm).
  repeat split.
Qed.

Lemma undecodable_file_propagates_witness :
  let r := run_script Sample.argv Garbled.disk Sample.parse Sample.traceback in
  uncaught r = Some (Raised DecodeError) /\
  exit_status r = 1 /\
  opened (final r) = [Sample.path] /\
  stdout (final r) = [] /\
  dumped (final r) = [] /\
  stderr (final r) = Sample.traceback (Raised DecodeError).
Proof.
  exact (@undecodable_file_propagates
           Sample.argv Garbled.disk Sample.parse Sample.traceback
           Sample.path [0%N; 255%N] eq_refl eq_refl eq_refl).
Defined.

(** ** The printed text *)

Lemma hex_digit_printable (d : N) :
  (d <= 15)%N -> printable (Json.hex_digit d) = true.
Proof.
  intros H. unfold printable, Json.hex_digit.
  destruct (d <? 10)%N; apply andb_true_iff; split; apply N.leb_le; lia.
Qed.

Lemma u_escape_printable (n : N) : forallb printable (Json.u_escape n) = true.
Proof.
  unfold Json.u_escape, Json.hex4. cbn [forallb].
  rewrite !hex_digit_printable by apply N.land_le_r.
  reflexivity.
Qed.

(** Whatever the character, its escape is made of printable ones. *)
Lemma escape_char_printable (c : N) : forallb printable (Json.escape_char c) = true.
Proof.
  unfold Json.escape_char.
  destruct (c =? 92)%N; [reflexivity|].
  destruct (c =? 34)%N; [reflexivity|].
  destruct ((32 <=? c) && (c <=? 126))%N eqn:Hp.
  { cbn [forallb]. unfold printable. now rewrite Hp. }
  destruct (c =? 8)%N; [reflexivity|].
  destruct (c =? 12)%N; [reflexivity|].
  destruct (c =? 10)%N; [reflexivity|].
  destruct (c =? 13)%N; [reflexivity|].
  destruct (c =? 9)%N; [reflexivity|].
  destruct (c <? 65536)%N.
  - apply u_escape_printable.
  - rewrite forallb_app, !u_escape_printable. reflexivity.
Qed.

Lemma escaped_printable (s : str) :
  forallb printable (flat_map Json.escape_char s) = true.
Proof.
  induction s as [|c s IH]; [reflexivity|].
  cbn [flat_map]. rewrite forallb_app, escape_char_printable, IH. reflexivity.
Qed.

Lemma encode_basestring_printable (s : str) :
  forallb printable (Json.encode_basestring_ascii s) = true.
Proof.
  unfold Json.encode_basestring_ascii. cbn [forallb].
  rewrite forallb_app, escaped_printable. reflexivity.
Qed.

Lemma printable_ascii_text (s : str) :
  forallb printable s = true -> forallb ascii_text s = true.
Proof.
  induction s as [|c s IH]; [reflexivity|]. cbn [forallb].
  intros H. apply andb_true_iff in H as [Hc Hs].
  rewrite (IH Hs). unfold ascii_text. now rewrite Hc, orb_true_r.
Qed.

Lemma newline_indent_ascii_text (indent level : nat) :
  forallb ascii_text (Json.newline_indent indent level) = true.
Proof.
  unfold Json.newline_indent. rewrite forallb_app.
  induction (indent * level) as [|n IH]; [reflexivity|].
  cbn in *. exact IH.
Qed.

(** Induction on a value and, through its lists, on the values in it. *)
Lemma value_nested_ind (P : value -> Prop) :
  P VNone ->
  (forall s, P (VStr s)) ->
  (forall items, Forall P items -> P (VList items)) ->
  (forall items, Forall (fun kv => P (snd kv)) items -> P (VDict items)) ->
  forall v, P v.
Proof.
  intros HN HS HL HD. fix IH 1. intros [ | s | items | items].
  - exact HN.
  - apply HS.
  - apply HL. induction items as [|x items IHi]; constructor; [apply IH | exact IHi].
  - apply HD. induction items as [|[k x] items IHi]; constructor; [apply IH | exact IHi].
Qed.

(** [json.dumps] with the default [ensure_ascii] writes ASCII only,
    at every indent and nesting level. *)
Lemma iterencode_ascii_text (indent : nat) (o : value) :
  forall level, forallb ascii_text (Json.iterencode indent level o) = true.
Proof.
  induction o as [ | s | items IH | items IH ] using value_nested_ind; intros level.
  - reflexivity.
  - apply printable_ascii_text, encode_basestring_printable.
  - destruct items as [|x xs]; [reflexivity|].
    cbn [Json.iterencode]. inversion IH as [|? ? Hx Hxs]; subst.
    rewrite !forallb_app, !newline_indent_ascii_text, Hx. cbn [andb].
    match goal with
    | |- context [forallb ascii_text (?f xs)] =>
        assert (Hrest : forallb ascii_text (f xs) = true)
    end.
    { clear Hx IH. induction Hxs as [|y ys Hy _ IHys]; [reflexivity|].
      cbn -[lit Json.newline_indent Json.iterencode forallb].
      rewrite !forallb_app, newline_indent_ascii_text, Hy, IHys. reflexivity. }
    rewrite Hrest. reflexivity.
  - destruct items as [|[k x] xs]; [reflexivity|].
    cbn [Json.iterencode]. inversion IH as [|? ? Hx Hxs]; subst. cbn [snd] in Hx.
    rewrite !forallb_app, !newline_indent_ascii_text, Hx.
    rewrite (printable_ascii_text _ (encode_basestring_printable k)).
    cbn [andb].
    match goal with
    | |- context [forallb ascii_text (?f xs)] =>
        assert (Hrest : forallb ascii_text (f xs) = true)
    end.
    { clear Hx IH. induction Hxs as [|[k' y] ys Hy _ IHys]; [reflexivity|].
      cbn [snd] in Hy.
      cbn -[lit Json.newline_indent Json.iterencode Json.encode_basestring_ascii
            forallb].
      rewrite !forallb_app, newline_indent_ascii_text, Hy, IHys.
      rewrite (printable_ascii_text _ (encode_basestring_printable k')).
      reflexivity. }
    rewrite Hrest. reflexivity.
Qed.

(** X5: whatever characters the graph's and the nodes' names hold, and
    however the run ends, standard output holds printable ASCII
    characters and line breaks only. *)
Theorem stdout_is_ascii argv disk parse tb :
  forallb ascii_text (stdout (final (run_script argv disk parse tb))) = true.
Proof.
  destruct (run_cases argv disk parse tb)
    as [[_ E] | [(p & Hp & _ & E) | [(p & b & _ & _ & _ & E) | (p & b & m & _ & _ & _ & E)]]];
    cbv zeta in E; rewrite E; cbn [final stdout].
  - vm_compute. reflexivity.
  - reflexivity.
  - reflexivity.
  - rewrite forallb_app. unfold Json.dumps.
    rewrite iterencode_ascii_text. reflexivity.
Qed.

(** ** Lines *)









(** ** What the document keeps *)





End ParseOnnxMore.

(* ===================================================================== *)
(** * Further properties of [tools/create_and_save_model.py]

    The file as it is runs none of its statements.  What follows is about
    the statements themselves, in the order in which the interpreter
    would run them. *)
(* ===================================================================== *)

Module CreateAndSaveModelMore.
Import Py CreateAndSaveModel CreateAndSaveModelSpec.
Local Open Scope py_scope.

(** ** The directory listing *)

Lemma print_files_text (pre : str) (files : list str) :
  forall w : io,
    for_each files tt (fun f _ => print (pre ++ f)) w
    = ({| stdout := stdout w ++ flat_map (fun f => (pre ++ f) ++ NL) files;
          stderr := stderr w;
          calls := calls w |}, inr tt).
Proof.
  induction files as [|f files IH]; intros w.
  - cbn [flat_map for_each]. rewrite app_nil_r. destruct w; reflexivity.
  - cbn [for_each flat_map]. unfold bind at 1, print at 1, modify at 1.
    rewrite IH. cbn [stdout stderr calls]. now rewrite <- !app_assoc.
Qed.

(** The run of the loop of lines 39-45 where every line can be written. *)
Lemma listing_run
    (walk : list (str * list str * list str)) (model_save_path : str) (w : io) :
  listing walk model_save_path w
  = ({| stdout := stdout w ++ listing_text walk model_save_path;
        stderr := stderr w;
        calls := calls w |}, inr tt).
Proof.
  unfold listing, listing_text. revert w.
  induction walk as [|[[root dirs] files] rest IH]; intros w.
  - cbn [flat_map for_each]. rewrite app_nil_r. destruct w; reflexivity.
  - cbn [for_each flat_map]. unfold bind at 1. unfold bind at 1.
    unfold print at 1, modify at 1.
    rewrite print_files_text. rewrite IH.
    cbn [stdout stderr calls]. unfold entry_text.
    now rewrite <- !app_assoc.
Qed.

(** X8: whenever the loop of lines 39-45 runs to its end, it has written,
    after what was already on standard output, one line per directory
    that [os.walk] yielded, each followed by one line per file in it, and
    it has made no library call. *)
Theorem listing_prints_one_line_per_entry
    (walk : list (str * list str * list str)) (model_save_path : str)
    (w w' : io) :
  listing walk model_save_path w = (w', inr tt) ->
  stdout w' = stdout w ++ listing_text walk model_save_path /\
  calls w' = calls w.
Proof.
  rewrite listing_run. intros H. injection H as <-.
  split; reflexivity.
Qed.

Lemma listing_prints_one_line_per_entry_witness :
  let w' := fst (listing Broken.walk (lit "./simple_tf_model") start) in
  listing Broken.walk (lit "./simple_tf_model") start = (w', inr tt) /\
  stdout w'
  = stdout start ++ listing_text Broken.walk (lit "./simple_tf_model") /\
  calls w' = calls start.
Proof.
  cbv zeta.
  assert (H : listing Broken.walk (lit "./simple_tf_model") start
              = (fst (listing Broken.walk (lit "./simple_tf_model") start),
                 inr tt))
    by (vm_compute; reflexivity).
  split; [exact H|].
  exact (@listing_prints_one_line_per_entry
           Broken.walk (lit "./simple_tf_model") start
           (fst (listing Broken.walk (lit "./simple_tf_model") start)) H).
Defined.

(** ** The depth of a directory *)

Lemma strip_prefix_app (p rest : str) : strip_prefix p (p ++ rest) = Some rest.
Proof.
  induction p as [|c p IH]; [destruct rest; reflexivity|].
  cbn [app strip_prefix]. now rewrite N.eqb_refl.
Qed.

(** Where [old] does not occur, [replace] changes nothing. *)
Lemma replace_from_absent (old new : str) (s : str) :
  occurs old s = false ->
  forall fuel, replace_from fuel s old new = s.
Proof.
  induction s as [|c s IH]; intros Hocc fuel.
  - destruct fuel; reflexivity.
  - destruct fuel as [|fuel]; [reflexivity|].
    cbn [occurs] in Hocc. cbn [replace_from].
    destruct (strip_prefix old (c :: s)); [discriminate|].
    now rewrite IH.
Qed.

Lemma replace_prefix (p rest : str) :
  p <> [] ->
  occurs p rest = false ->
  replace (p ++ rest) p [] = rest.
Proof.
  intros Hp Hocc. unfold replace.
  destruct p as [|c p]; [contradiction|].
  cbn [app List.length replace_from].
  change (c :: p ++ rest) with ((c :: p) ++ rest).
  rewrite strip_prefix_app. cbn [app].
  now apply replace_from_absent.
Qed.

(** X9: for a directory [model_save_path ++ rest] below the saved model
    (the path itself not occurring again in [rest]), the loop indents the
    directory's line by four spaces per separator in [rest], and the
    lines of its files by four more. *)
Theorem listing_indents_by_depth
    (model_save_path rest : str) (dirs files : list str) (w : io) :
  model_save_path <> [] ->
  occurs model_save_path rest = false ->
  listing [(model_save_path ++ rest, dirs, files)] model_save_path w
  = ({| stdout :=
          stdout w
          ++ (spaces (4 * count rest os_sep)
              ++ basename (model_save_path ++ rest) ++ lit "/") ++ NL
          ++ flat_map (fun f => (spaces (4 * (count rest os_sep + 1)) ++ f) ++ NL)
               files;
        stderr := stderr w;
        calls := calls w |}, inr tt).
Proof.
  intros Hp Hocc. unfold listing.
  cbn [for_each]. unfold bind at 1. unfold bind at 1.
  unfold print at 1, modify at 1.
  rewrite (@replace_prefix model_save_path rest Hp Hocc), print_files_text.
  cbn [stdout stderr calls]. unfold ret.
  now rewrite <- !app_assoc.
Qed.

Lemma listing_indents_by_depth_witness :
  listing [(lit "./simple_tf_model" ++ lit "/variables", [],
            [lit "variables.index"])]
    (lit "./simple_tf_model") start
  = ({| stdout :=
          lit "    variables/" ++ NL ++ lit "        variables.index" ++ NL;
        stderr := [];
        calls := [] |}, inr tt).
Proof.
  refine (@listing_indents_by_depth
            (lit "./simple_tf_model") (lit "/variables") []
            [lit "variables.index"] start _ eq_refl).
  discriminate.
Defined.

(** ** Failures *)

(** The calls of a run of the statements and how it ends, by which
    call raises first. *)
Lemma body_run
    (raises : libcall -> bool) (walk : list (str * list str * list str))
    (format : handle -> str) :
  let (w, res) := body raises walk format start in
  let (made, failed) := until_raise raises script_calls in
  calls w = made /\
  res = match failed with
        | None => inr tt
        | Some c => inl (LibraryError c)
        end.
Proof.
  destruct (body raises walk format start) as [w res] eqn:H.
  unfold body, create_simple_model in H.
  unfold script_calls.
  repeat
    (cbn -[listing call lit] in H;
     first
       [ match type of H with
         | context [listing walk ?p ?w1] =>
             let out := fresh "out" in
             let E := fresh "E" in
             destruct (listing_only_prints walk p w1) as [out E];
             rewrite E in H; clear E
         end
       | match type of H with
         | context [call raises ?c ?w1] =>
             let E := fresh "E" in
             let t := eval cbv beta delta [call] in (call raises c w1) in
             change (call raises c w1) with t in H;
             destruct (raises c) eqn:E;
             [ injection H as <- <-;
               cbn -[lit];
               repeat match goal with
                      | E' : raises ?c' = _ |- context [raises ?c'] =>
                          rewrite E'; cbn -[lit]
                      end;
               repeat split
             | ]
         end
       | progress (unfold bind at 1 in H) ]).
  injection H as <- <-.
  cbn -[lit].
  repeat match goal with
         | E' : raises ?c' = _ |- context [raises ?c'] => rewrite E'; cbn -[lit]
         end.
  repeat split.
Qed.

(** X10: the statements make their library calls in one fixed order and
    stop at the first call that raises.  Whenever they end, normally or
    in the exception of a library call, the calls made are exactly those
    of the file before the first call that raised and the exception is
    that call's; if they end normally no call raised and all seventeen
    were made. *)
Theorem body_calls_stop_at_first_failure
    (raises : libcall -> bool) (walk : list (str * list str * list str))
    (format : handle -> str) (w : io) (res : exn + unit) :
  body raises walk format start = (w, res) ->
  until_raise raises script_calls
  = (calls w,
     match res with
     | inl (LibraryError c) => Some c
     | inr _ => None
     end).
Proof.
  intros H. pose proof (body_run raises walk format) as R.
  rewrite H in R.
  destruct (until_raise raises script_calls) as [made failed].
  destruct R as [-> ->]. destruct failed; reflexivity.
Qed.

Lemma body_calls_stop_at_first_failure_witness :
  let w := fst (body Broken.raises Broken.walk Broken.format start) in
  body Broken.raises Broken.walk Broken.format start
  = (w, inl (LibraryError (SavedModelLoad (lit "./simple_tf_model")))) /\
  until_raise Broken.raises script_calls
  = (calls w, Some (SavedModelLoad (lit "./simple_tf_model"))).
Proof.
  cbv zeta.
  assert (H : body Broken.raises Broken.walk Broken.format start
              = (fst (body Broken.raises Broken.walk Broken.format start),
                 inl (LibraryError (SavedModelLoad (lit "./simple_tf_model")))))
    by (vm_compute; reflexivity).
  split; [exact H|].
  exact (@body_calls_stop_at_first_failure
           Broken.raises Broken.walk Broken.format
           (fst (body Broken.raises Broken.walk Broken.format start))
           (inl (LibraryError (SavedModelLoad (lit "./simple_tf_model")))) H).
Defined.

(** A run in which [tf.saved_model.load] raises: the twelve calls before
    it are made, the five after it are not. *)
Example load_failure_stops_the_script :
  let (w, res) := body Broken.raises Broken.walk Broken.format start in
  calls w = firstn 12 script_calls /\
  res = inl (LibraryError (SavedModelLoad (lit "./simple_tf_model"))).
Proof. vm_compute. split; reflexivity. Qed.

End CreateAndSaveModelMore.

(* ===================================================================== *)
(** * Properties of [tools/parse_onnx.py] with external data *)
(* ===================================================================== *)

Module ParseOnnxExternalSpec.
Import Py ParseOnnx ParseOnnxSpec.
Local Open Scope py_scope.

(** The load of the external data touches the named files in order, up
    to the first that is missing, and changes nothing else. *)
Lemma load_external_data_run disk (locations : list str) :
  forall w : io,
    ParseOnnxExternal.load_external_data disk locations w
    = ({| stdout := stdout w;
          stderr := stderr w;
          opened := opened w ++ ParseOnnxExternal.touched disk locations;
          dumped := dumped w |},
       match ParseOnnxExternal.missing disk locations with
       | None => inr tt
       | Some location => inl (ValidationError location)
       end).
Proof.
  unfold ParseOnnxExternal.load_external_data.
  induction locations as [|l locations IH]; intros w.
  - cbn. rewrite app_nil_r. destruct w; reflexivity.
  - cbn [for_each ParseOnnxExternal.touched ParseOnnxExternal.missing].
    unfold bind at 1. unfold bind at 1. unfold modify at 1.
    destruct (disk l) as [data|].
    + unfold ret at 1. rewrite IH. cbn [stdout stderr opened dumped].
      now rewrite <- app_assoc.
    + reflexivity.
Qed.

(** Two disks that hold the same named files load alike. *)
Lemma load_external_data_agree disk1 disk2 (locations : list str) :
  (forall l, In l locations -> disk1 l = disk2 l) ->
  forall w : io,
    ParseOnnxExternal.load_external_data disk1 locations w
    = ParseOnnxExternal.load_external_data disk2 locations w.
Proof.
  intros H w. rewrite !load_external_data_run.
  assert (Ht : ParseOnnxExternal.touched disk1 locations
               = ParseOnnxExternal.touched disk2 locations
               /\ ParseOnnxExternal.missing disk1 locations
                  = ParseOnnxExternal.missing disk2 locations).
  { induction locations as [|l locations IH]; [split; reflexivity|].
    cbn [ParseOnnxExternal.touched ParseOnnxExternal.missing].
    rewrite <- (H l (or_introl eq_refl)).
    destruct IH as [IH1 IH2]; [intros l' Hl'; apply H; now right|].
    destruct (disk1 l); [now rewrite IH1, IH2 | split; reflexivity]. }
  destruct Ht as [-> ->]. reflexivity.
Qed.

Lemma external_run_script_main argv disk parse external tb :
  ParseOnnxExternal.run_script argv disk parse external tb =
  match ParseOnnxExternal.main argv disk parse external start with
  | (w, inr tt) => {| final := w; uncaught := None; exit_status := 0 |}
  | (w, inl e) =>
      {| final := report tb (Raised e) w;
         uncaught := Some (Raised e);
         exit_status := 1 |}
  end.
Proof.
  unfold ParseOnnxExternal.run_script, python_run.
  rewrite source_accepted. reflexivity.
Qed.

(** What [main] does, by what it finds. *)
Lemma external_main_run argv disk parse external :
  ParseOnnxExternal.main argv disk parse external start
  = match nth_error argv 1 with
    | None =>
        ({| stdout := usage ++ NL; stderr := []; opened := []; dumped := [] |},
         inr tt)
    | Some p =>
        match disk p with
        | None =>
            ({| stdout := []; stderr := []; opened := [p]; dumped := [] |},
             inl (FileNotFoundError p))
        | Some bytes =>
            match parse bytes with
            | None =>
                ({| stdout := []; stderr := []; opened := [p]; dumped := [] |},
                 inl DecodeError)
            | Some m =>
                match ParseOnnxExternal.missing disk (external p bytes) with
                | Some location =>
                    ({| stdout := []; stderr := [];
                        opened := p :: ParseOnnxExternal.touched disk (external p bytes);
                        dumped := [] |},
                     inl (ValidationError location))
                | None =>
                    ({| stdout := Json.dumps (document_of m) 4 ++ NL;
                        stderr := [];
                        opened := p :: ParseOnnxExternal.touched disk (external p bytes);
                        dumped := [document_of m] |},
                     inr tt)
                end
            end
        end
    end.
Proof.
  unfold ParseOnnxExternal.main, subscript, ParseOnnxExternal.onnx_load.
  rewrite short_argv.
  destruct (nth_error argv 1) as [p|]; [|reflexivity].
  unfold bind at 1 2 3. unfold ret at 1, modify at 1.
  destruct (disk p) as [bytes|]; [|reflexivity].
  destruct (parse bytes) as [m|]; [|reflexivity].
  unfold bind at 1. rewrite load_external_data_run.
  destruct (ParseOnnxExternal.missing disk (external p bytes)) as [location|];
    [reflexivity|].
  unfold ret at 1. unfold bind at 1.
  unfold output_of. rewrite loop_appends.
  reflexivity.
Qed.

(** On a model file that names no external data the load is that of
    [ParseOnnx], and so is the run. *)
Lemma run_without_external_data argv disk parse external tb :
  (forall p bytes, external p bytes = []) ->
  ParseOnnxExternal.run_script argv disk parse external tb
  = ParseOnnx.run_script argv disk parse tb.
Proof.
  intros Hnone.
  rewrite external_run_script_main, run_script_main, external_main_run.
  destruct (nth_error argv 1) as [p|] eqn:Hp.
  - destruct (disk p) as [bytes|] eqn:Hd.
    + destruct (parse bytes) as [m|] eqn:Hm.
      * rewrite Hnone. cbn [ParseOnnxExternal.missing ParseOnnxExternal.touched].
        now rewrite (@main_valid argv disk parse p bytes m Hp Hd Hm).
      * now rewrite (@main_undecodable argv disk parse p bytes Hp Hd Hm).
    + now rewrite (@main_missing_file argv disk parse p Hp Hd).
  - assert (H : List.length argv < 2) by (apply nth_error_None in Hp; lia).
    now rewrite (@main_no_argument argv disk parse H).
Qed.

(** Two runs that agree on [sys.argv[1]], on the model file and on the
    files it names run alike. *)
Lemma external_main_agree argv1 argv2 disk1 disk2 parse external :
  nth_error argv1 1 = nth_error argv2 1 ->
  (forall p, nth_error argv1 1 = Some p -> disk1 p = disk2 p) ->
  (forall p bytes location,
      nth_error argv1 1 = Some p -> disk1 p = Some bytes ->
      In location (external p bytes) -> disk1 location = disk2 location) ->
  forall w : io,
    ParseOnnxExternal.main argv1 disk1 parse external w
    = ParseOnnxExternal.main argv2 disk2 parse external w.
Proof.
  intros Ha Hd He w.
  unfold ParseOnnxExternal.main, subscript, ParseOnnxExternal.onnx_load.
  rewrite !short_argv, <- Ha.
  destruct (nth_error argv1 1) as [p|]; [|reflexivity].
  unfold bind, ret, modify.
  rewrite <- (Hd p eq_refl).
  destruct (disk1 p) as [bytes|] eqn:Hb; [|reflexivity].
  destruct (parse bytes) as [m|]; [|reflexivity].
  rewrite (@load_external_data_agree disk1 disk2 (external p bytes)
             (fun l Hl => He p bytes l eq_refl Hb Hl)).
  reflexivity.
Qed.

(* ------------------------------------------------------------------- *)
(** ** The claims *)
(* ------------------------------------------------------------------- *)

(** C9, as worded: two runs with the same [sys.argv[1]] and the same
    model file print the same.  They need not: [model.onnx] names
    [weights.bin], and of two disks that hold [model.onnx] byte for byte
    the one that also holds [weights.bin] gets the document printed while
    the other ends in [ValidationError] with nothing printed. *)
Lemma external_data_changes_output :
  ~ (nth_error Sample.argv 1 = nth_error Sample.argv 1 ->
     (forall p, nth_error Sample.argv 1 = Some p ->
                ParseOnnxExternal.Stored.disk p
                = ParseOnnxExternal.Stored.disk_without_data p) ->
     stdout (final (ParseOnnxExternal.run_script
                      Sample.argv ParseOnnxExternal.Stored.disk Sample.parse
                      ParseOnnxExternal.Stored.external Sample.traceback))
     = stdout (final (ParseOnnxExternal.run_script
                        Sample.argv ParseOnnxExternal.Stored.disk_without_data
                        Sample.parse ParseOnnxExternal.Stored.external
                        Sample.traceback))).
Proof.
  intros H.
  assert (Hfile : forall p, nth_error Sample.argv 1 = Some p ->
                            ParseOnnxExternal.Stored.disk p
                            = ParseOnnxExternal.Stored.disk_without_data p).
  { intros p Hp. injection Hp as <-. reflexivity. }
  specialize (H eq_refl Hfile).
  vm_compute in H. discriminate H.
Qed.

(** The two runs of that counterexample, side by side. *)
Example stored_data_runs :
  let with_data :=
    ParseOnnxExternal.run_script Sample.argv ParseOnnxExternal.Stored.disk
      Sample.parse ParseOnnxExternal.Stored.external Sample.traceback in
  let without_data :=
    ParseOnnxExternal.run_script Sample.argv
      ParseOnnxExternal.Stored.disk_without_data
      Sample.parse ParseOnnxExternal.Stored.external Sample.traceback in
  (exit_status with_data = 0 /\
   stdout (final with_data) = flat_map (fun l => lit l ++ NL) Sample.printed /\
   opened (final with_data) = [Sample.path; ParseOnnxExternal.Stored.weights])
  /\
  (exit_status without_data = 1 /\
   uncaught without_data
   = Some (Raised (ValidationError ParseOnnxExternal.Stored.weights)) /\
   stdout (final without_data) = []).
Proof. vm_compute. repeat split. Qed.

(** C9, amended: two runs that agree on [sys.argv[1]] (present or not),
    on the file at that path and on every external-data file that file
    names end alike: the same text on standard output, and the same
    outcome altogether, whatever else the argument vectors and the disks
    hold. *)
Theorem output_depends_on_path_file_and_external_data
    argv1 argv2 disk1 disk2 parse external tb :
  nth_error argv1 1 = nth_error argv2 1 ->
  (forall p, nth_error argv1 1 = Some p -> disk1 p = disk2 p) ->
  (forall p bytes location,
      nth_error argv1 1 = Some p -> disk1 p = Some bytes ->
      In location (external p bytes) -> disk1 location = disk2 location) ->
  stdout (final (ParseOnnxExternal.run_script argv1 disk1 parse external tb))
  = stdout (final (ParseOnnxExternal.run_script argv2 disk2 parse external tb))
  /\ ParseOnnxExternal.run_script argv1 disk1 parse external tb
     = ParseOnnxExternal.run_script argv2 disk2 parse external tb.
Proof.
  intros Ha Hd He.
  assert (E : ParseOnnxExternal.run_script argv1 disk1 parse external tb
              = ParseOnnxExternal.run_script argv2 disk2 parse external tb).
  { rewrite !external_run_script_main.
    rewrite (@external_main_agree argv1 argv2 disk1 disk2 parse external
               Ha Hd He start).
    reflexivity. }
  split; [now rewrite E | exact E].
Qed.

Lemma output_depends_on_path_file_and_external_data_witness :
  stdout (final (ParseOnnxExternal.run_script
                   Sample.argv ParseOnnxExternal.Stored.disk Sample.parse
                   ParseOnnxExternal.Stored.external Sample.traceback))
  = stdout (final (ParseOnnxExternal.run_script
                     Sample.argv_extra ParseOnnxExternal.Stored.disk_more
                     Sample.parse ParseOnnxExternal.Stored.external
                     Sample.traceback))
  /\ ParseOnnxExternal.run_script
       Sample.argv ParseOnnxExternal.Stored.disk Sample.parse
       ParseOnnxExternal.Stored.external Sample.traceback
     = ParseOnnxExternal.run_script
         Sample.argv_extra ParseOnnxExternal.Stored.disk_more Sample.parse
         ParseOnnxExternal.Stored.external Sample.traceback.
Proof.
  apply (@output_depends_on_path_file_and_external_data
           Sample.argv Sample.argv_extra
           ParseOnnxExternal.Stored.disk ParseOnnxExternal.Stored.disk_more
           Sample.parse ParseOnnxExternal.Stored.external Sample.traceback).
  - reflexivity.
  - intros p Hp. injection Hp as <-. reflexivity.
  - intros p bytes location Hp _ [<- | []]. reflexivity.
Defined.



(** X4: without an argument a run opens nothing.  With one, it opens the
    file named by [sys.argv[1]] first and after it only external-data
    files that this file names, in their order and up to the first that
    is missing; the program name and any further argument are never used
    as a path. *)
Theorem opens_model_file_then_its_external_data argv disk parse external tb :
  opened (final (ParseOnnxExternal.run_script argv disk parse external tb))
  = match nth_error argv 1 with
    | None => []
    | Some p =>
        p :: match disk p with
             | None => []
             | Some bytes =>
                 match parse bytes with
                 | None => []
                 | Some _ => ParseOnnxExternal.touched disk (external p bytes)
                 end
             end
    end.
Proof.
  rewrite external_run_script_main, external_main_run.
  destruct (nth_error argv 1) as [p|]; [|reflexivity].
  destruct (disk p) as [bytes|]; [|reflexivity].
  destruct (parse bytes) as [m|]; [|reflexivity].
  destruct (ParseOnnxExternal.missing disk (external p bytes)); reflexivity.
Qed.

End ParseOnnxExternalSpec.
